(** * setup_payment_notifications.py: a shallow embedding

    The script prints four fixed source-code templates to standard output.
    Python text is modelled by [string], holding the text in UTF-8; Python
    [int] by [Z]; [sys.argv] by [list string]. Statements run in a small
    state-and-exception monad [Py] over the world a process can observe or
    change. Standard output is a byte stream with an encoding of its own:
    [sys.stdout.write] encodes the text it is given, and raises
    [UnicodeEncodeError] when the stream cannot encode it. Encodings are
    taken to agree with ASCII on ASCII text, and line feeds to be written as
    they are. *)

From Stdlib Require Import String Ascii List ZArith Bool Lia.
Import ListNotations.
Open Scope string_scope.

(** ** Python [str] *)

Module Str.

(** The double quote and the line feed, written by their decimal codes. *)
Definition q : string := String "034"%char EmptyString.
Definition nl : string := String "010"%char EmptyString.

(** A triple-quoted literal whose text lines all end in a line feed. *)
Fixpoint lines (ls : list string) : string :=
  match ls with
  | [] => EmptyString
  | l :: ls' => l ++ nl ++ lines ls'
  end.

(** [s * n] on [str]: [n] copies of [s], none when [n <= 0]. *)
Fixpoint copies (n : nat) (s : string) : string :=
  match n with
  | O => EmptyString
  | S n' => s ++ copies n' s
  end.

Definition mul (s : string) (n : Z) : string := copies (Z.to_nat n) s.

(** [strip_prefix m s] is the rest of [s] after a leading [m]. *)
Fixpoint strip_prefix (m s : string) : option string :=
  match m, s with
  | EmptyString, _ => Some s
  | String a m', String b s' =>
      if Ascii.eqb a b then strip_prefix m' s' else None
  | String _ _, EmptyString => None
  end.

(** [s.partition(m)] when [m] occurs in [s]: the text before the first
    occurrence and the text after it. *)
Fixpoint partition (m s : string) : option (string * string) :=
  match strip_prefix m s with
  | Some r => Some (EmptyString, r)
  | None =>
      match s with
      | EmptyString => None
      | String c s' =>
          match partition m s' with
          | Some (p, r) => Some (String c p, r)
          | None => None
          end
      end
  end.

(** [m in s]. *)
Definition contains (m s : string) : bool :=
  match partition m s with Some _ => true | None => false end.

(** The number of positions of [s] at which [m] starts. *)
Fixpoint occurrences (m s : string) : nat :=
  (match strip_prefix m s with Some _ => 1 | None => 0 end +
   match s with
   | EmptyString => 0
   | String _ s' => occurrences m s'
   end)%nat.

(** The markers are found one after the other, each in the text that
    follows the previous one. *)
Fixpoint in_order (ms : list string) (s : string) : bool :=
  match ms with
  | [] => true
  | m :: ms' =>
      match partition m s with
      | Some (_, r) => in_order ms' r
      | None => false
      end
  end.

(** The text up to the first double quote. *)
Fixpoint until_quote (s : string) : string :=
  match s with
  | EmptyString => EmptyString
  | String c s' =>
      if Ascii.eqb c "034"%char then EmptyString else String c (until_quote s')
  end.

(** The quoted labels of the [case] clauses of a TypeScript [switch], in
    the order they appear. *)
Fixpoint case_labels (s : string) : list string :=
  match s with
  | EmptyString => []
  | String _ s' =>
      (match strip_prefix ("case " ++ q) s with
       | Some r => [until_quote r]
       | None => []
       end ++ case_labels s')%list
  end.

(** What the three searches mean. *)
Definition substring_of (m s : string) : Prop :=
  exists p r, s = p ++ m ++ r.

Fixpoint appear_in_order (ms : list string) (s : string) : Prop :=
  match ms with
  | [] => True
  | m :: ms' => exists p r, s = p ++ m ++ r /\ appear_in_order ms' r
  end.

End Str.

(** ** The encoding of a text stream *)

Module Codec.

Definition is_ascii_byte (b : ascii) : bool := (nat_of_ascii b <? 128)%nat.

(** The bytes [10xxxxxx] that continue a character in UTF-8. *)
Definition is_continuation (b : ascii) : bool :=
  ((128 <=? nat_of_ascii b) && (nat_of_ascii b <? 192))%nat.

(** The continuation bytes a text starts with, and the characters after
    them: every other byte opens a character and takes the continuation
    bytes that follow it. *)
Fixpoint chars_from (s : string) : string * list string :=
  match s with
  | EmptyString => (EmptyString, [])
  | String b s' =>
      let (k, cs) := chars_from s' in
      if is_continuation b then (String b k, cs)
      else (EmptyString, String b k :: cs)
  end.

(** The characters of a text, each as its UTF-8 bytes. *)
Definition chars (s : string) : list string := snd (chars_from s).

Definition is_ascii_char (ch : string) : bool :=
  match ch with
  | String b EmptyString => is_ascii_byte b
  | _ => false
  end.

(** What a stream does with a character outside ASCII: the bytes its
    encoding has for it (or that its error handler puts in its place), or
    nothing when the character cannot be encoded and the handler is strict. *)
Definition codec : Type := string -> option string.

Definition encode_char (c : codec) (ch : string) : option string :=
  if is_ascii_char ch then Some ch else c ch.

(** The encoding of every character, when all of them can be encoded. *)
Fixpoint encode_each (c : codec) (chs : list string) : option (list string) :=
  match chs with
  | [] => Some []
  | ch :: rest =>
      match encode_char c ch with
      | None => None
      | Some b =>
          match encode_each c rest with
          | None => None
          | Some bs => Some (b :: bs)
          end
      end
  end.

Fixpoint flatten (pieces : list string) : string :=
  match pieces with
  | [] => EmptyString
  | p :: ps => p ++ flatten ps
  end.

(** [s.encode(encoding, errors)]: the bytes, or nothing when it raises. *)
Definition encode (c : codec) (s : string) : option string :=
  option_map flatten (encode_each c (chars s)).

(** A UTF-8 stream writes every character as it is. *)
Definition utf8 : codec := fun ch => Some ch.

(** An ASCII stream with the strict error handler encodes no other
    character. *)
Definition ascii_strict : codec := fun _ => None.

End Codec.

(** ** The world of a process *)

Record World := mkWorld {
  environ : string -> option string;   (* os.environ *)
  files : string -> option string;     (* the file system: path to contents *)
  network : list string;               (* what has been sent over sockets *)
  clock : Z;                           (* wall-clock time *)
  entropy : list Z;                    (* the source of random numbers *)
  stdout_codec : Codec.codec;          (* encoding and errors of sys.stdout *)
  stdout : string                      (* bytes written to standard output *)
}.

Definition write_stdout (t : string) (w : World) : World :=
  {| environ := environ w; files := files w; network := network w;
     clock := clock w; entropy := entropy w;
     stdout_codec := stdout_codec w; stdout := stdout w ++ t |}.

(** A machine with nothing on it and a UTF-8 standard output, before the
    process has written anything. *)
Definition boot : World :=
  {| environ := fun _ => None; files := fun _ => None; network := [];
     clock := 0; entropy := []; stdout_codec := Codec.utf8;
     stdout := EmptyString |}.

(** A machine on another day: other variables, files, traffic, time and
    random numbers, and the same UTF-8 standard output. *)
Definition another_day : World :=
  {| environ := fun _ => Some "1"; files := fun _ => Some "x";
     network := ["GET /"]; clock := 1700000000; entropy := [4%Z; 2%Z];
     stdout_codec := Codec.utf8; stdout := EmptyString |}.

(** The same machine with a strict ASCII standard output. *)
Definition ascii_terminal : World :=
  {| environ := fun _ => None; files := fun _ => None; network := [];
     clock := 0; entropy := []; stdout_codec := Codec.ascii_strict;
     stdout := EmptyString |}.

(** ** Statements: state and exceptions *)

Inductive exn : Type :=
| SystemExit (code : Z)
| IndexError
| UnicodeEncodeError.

Inductive outcome (A : Type) : Type :=
| Returned (a : A)
| Raised (e : exn).
Arguments Returned {A} a.
Arguments Raised {A} e.

Definition Py (A : Type) : Type := World -> outcome A * World.

Definition ret {A} (a : A) : Py A := fun w => (Returned a, w).

Definition raise {A} (e : exn) : Py A := fun w => (Raised e, w).

Definition bind {A B} (c : Py A) (k : A -> Py B) : Py B :=
  fun w =>
    match c w with
    | (Returned a, w') => k a w'
    | (Raised e, w') => (Raised e, w')
    end.

Notation "x <- c ;; k" := (bind c (fun x => k))
  (at level 61, c at next level, right associativity).
Notation "c ;; k" := (bind c (fun _ => k))
  (at level 61, right associativity).

(** [sys.stdout.write(s)]: the whole text is encoded first; its bytes are
    appended to the stream, or nothing is written and
    [UnicodeEncodeError] is raised. *)
Definition write (s : string) : Py unit :=
  fun w =>
    match Codec.encode (stdout_codec w) s with
    | Some bytes => (Returned tt, write_stdout bytes w)
    | None => (Raised UnicodeEncodeError, w)
    end.

(** The arguments of [print], written one by one with a space between. *)
Fixpoint write_args (args : list string) : Py unit :=
  match args with
  | [] => ret tt
  | [x] => write x
  | x :: rest => write x ;; write " " ;; write_args rest
  end.

(** [print(a, b, ...)]: the arguments, then a line feed. *)
Definition print (args : list string) : Py unit :=
  write_args args ;; write Str.nl.

(** [sys.exit(code)]. *)
Definition sys_exit {A} (code : Z) : Py A := raise (SystemExit code).

(** [xs[i]] on a list, negative indices counting from the end. *)
Definition getitem {A} (xs : list A) (i : Z) : Py A :=
  let n := Z.of_nat (length xs) in
  let j := if (i <? 0)%Z then (n + i)%Z else i in
  if ((j <? 0) || (n <=? j))%Z then raise IndexError
  else match nth_error xs (Z.to_nat j) with
       | Some x => ret x
       | None => raise IndexError
       end.

(** [pathlib.Path(s)] builds a path object from text; it does not touch the
    file system. *)
Inductive path : Type := Path (s : string).

(** ** The template generators *)

Import Str.

Definition generate_notification_types : Py string :=
  ret (lines [
    "// Notification types for payment events";
    "export const PAYMENT_NOTIFICATION_TYPES = {";
    "  PAYMENT_SUCCESS: " ++ q ++ "payment_success" ++ q ++ ",";
    "  PAYMENT_FAILED: " ++ q ++ "payment_failed" ++ q ++ ",";
    "  SUBSCRIPTION_RENEWAL: " ++ q ++ "subscription_renewal" ++ q ++ ",";
    "  SUBSCRIPTION_CANCELLED: " ++ q ++ "subscription_cancelled" ++ q ++ ",";
    "  REFUND_ISSUED: " ++ q ++ "refund_issued" ++ q ++ ",";
    "  ACCOUNT_CHANGE: " ++ q ++ "account_change" ++ q ++ ",";
    "} as const;";
    EmptyString;
    "export const PAYMENT_NOTIFICATION_ICONS = {";
    "  payment_success: " ++ q ++ "CheckCircle" ++ q ++ ",";
    "  payment_failed: " ++ q ++ "AlertCircle" ++ q ++ ",";
    "  subscription_renewal: " ++ q ++ "Clock" ++ q ++ ",";
    "  subscription_cancelled: " ++ q ++ "XCircle" ++ q ++ ",";
    "  refund_issued: " ++ q ++ "RefreshCw" ++ q ++ ",";
    "  account_change: " ++ q ++ "Settings" ++ q ++ ",";
    "} as const;";
    EmptyString;
    "export const PAYMENT_NOTIFICATION_COLORS = {";
    "  payment_success: " ++ q ++ "bg-green-50 border-green-200" ++ q ++ ",";
    "  payment_failed: " ++ q ++ "bg-red-50 border-red-200" ++ q ++ ",";
    "  subscription_renewal: " ++ q ++ "bg-blue-50 border-blue-200" ++ q ++ ",";
    "  subscription_cancelled: " ++ q ++ "bg-yellow-50 border-yellow-200" ++ q ++ ",";
    "  refund_issued: " ++ q ++ "bg-purple-50 border-purple-200" ++ q ++ ",";
    "  account_change: " ++ q ++ "bg-gray-50 border-gray-200" ++ q ++ ",";
    "} as const;"
  ]).

Definition generate_database_schema : Py string :=
  ret (lines [
    "// Add to drizzle/schema.ts";
    EmptyString;
    "import { mysqlTable, int, text, timestamp, boolean, varchar, json } from " ++ q ++ "drizzle-orm/mysql-core" ++ q ++ ";";
    "import { relations } from " ++ q ++ "drizzle-orm" ++ q ++ ";";
    EmptyString;
    "export const notifications = mysqlTable(" ++ q ++ "notifications" ++ q ++ ", {";
    "  id: int(" ++ q ++ "id" ++ q ++ ").primaryKey().autoincrement(),";
    "  adminId: int(" ++ q ++ "admin_id" ++ q ++ ").notNull(),";
    "  type: varchar(" ++ q ++ "type" ++ q ++ ", { length: 50 }).notNull(), // payment_success, payment_failed, etc.";
    "  title: text(" ++ q ++ "title" ++ q ++ ").notNull(),";
    "  body: text(" ++ q ++ "body" ++ q ++ ").notNull(),";
    "  linkUrl: text(" ++ q ++ "link_url" ++ q ++ "),";
    "  metadata: json(" ++ q ++ "metadata" ++ q ++ "), // Payment-specific data";
    "  read: boolean(" ++ q ++ "read" ++ q ++ ").default(false),";
    "  dismissed: boolean(" ++ q ++ "dismissed" ++ q ++ ").default(false),";
    "  createdAt: timestamp(" ++ q ++ "created_at" ++ q ++ ").defaultNow(),";
    "  updatedAt: timestamp(" ++ q ++ "updated_at" ++ q ++ ").defaultNow().onUpdateNow(),";
    "});";
    EmptyString;
    "export const adminNotificationPreferences = mysqlTable(" ++ q ++ "admin_notification_preferences" ++ q ++ ", {";
    "  id: int(" ++ q ++ "id" ++ q ++ ").primaryKey().autoincrement(),";
    "  adminId: int(" ++ q ++ "admin_id" ++ q ++ ").notNull().unique(),";
    "  inAppPayments: boolean(" ++ q ++ "in_app_payments" ++ q ++ ").default(true),";
    "  inAppSystemAlerts: boolean(" ++ q ++ "in_app_system_alerts" ++ q ++ ").default(true),";
    "  inAppAccountChanges: boolean(" ++ q ++ "in_app_account_changes" ++ q ++ ").default(true),";
    "  emailPayments: boolean(" ++ q ++ "email_payments" ++ q ++ ").default(false),";
    "  emailSystemAlerts: boolean(" ++ q ++ "email_system_alerts" ++ q ++ ").default(false),";
    "  emailAccountChanges: boolean(" ++ q ++ "email_account_changes" ++ q ++ ").default(false),";
    "  emailDigestFrequency: varchar(" ++ q ++ "email_digest_frequency" ++ q ++ ", { length: 20 }).default(" ++ q ++ "immediate" ++ q ++ "), // immediate, daily, weekly";
    "  quietHoursEnabled: boolean(" ++ q ++ "quiet_hours_enabled" ++ q ++ ").default(false),";
    "  quietHoursStart: varchar(" ++ q ++ "quiet_hours_start" ++ q ++ ", { length: 5 }), // HH:MM";
    "  quietHoursEnd: varchar(" ++ q ++ "quiet_hours_end" ++ q ++ ", { length: 5 }), // HH:MM";
    "  createdAt: timestamp(" ++ q ++ "created_at" ++ q ++ ").defaultNow(),";
    "  updatedAt: timestamp(" ++ q ++ "updated_at" ++ q ++ ").defaultNow().onUpdateNow(),";
    "});";
    EmptyString;
    "export const notificationsRelations = relations(notifications, ({ one }) => ({";
    "  admin: one(users, {";
    "    fields: [notifications.adminId],";
    "    references: [users.id],";
    "  }),";
    "}));"
  ]).

Definition generate_webhook_handler : Py string :=
  ret (lines [
    "// Add to server/_core/stripeWebhook.ts";
    EmptyString;
    "import Stripe from " ++ q ++ "stripe" ++ q ++ ";";
    "import { sendPaymentConfirmationNotification, sendPaymentFailureNotification } from " ++ q ++ "../paymentNotifications" ++ q ++ ";";
    EmptyString;
    "const stripe = new Stripe(process.env.STRIPE_SECRET_KEY || " ++ q ++ q ++ ");";
    EmptyString;
    "export async function handleStripeWebhook(req: any, res: any) {";
    "  const sig = req.headers[" ++ q ++ "stripe-signature" ++ q ++ "];";
    "  const webhookSecret = process.env.STRIPE_WEBHOOK_SECRET;";
    EmptyString;
    "  if (!sig || !webhookSecret) {";
    "    return res.status(400).json({ error: " ++ q ++ "Missing signature or webhook secret" ++ q ++ " });";
    "  }";
    EmptyString;
    "  let event: Stripe.Event;";
    EmptyString;
    "  try {";
    "    event = stripe.webhooks.constructEvent(req.body, sig, webhookSecret);";
    "  } catch (error: any) {";
    "    console.error(" ++ q ++ "Webhook signature verification failed:" ++ q ++ ", error.message);";
    "    return res.status(400).json({ error: " ++ q ++ "Invalid signature" ++ q ++ " });";
    "  }";
    EmptyString;
    "  // Handle test events";
    "  if (event.id.startsWith(" ++ q ++ "evt_test_" ++ q ++ ")) {";
    "    console.log(" ++ q ++ "[Webhook] Test event detected, returning verification response" ++ q ++ ");";
    "    return res.json({ verified: true });";
    "  }";
    EmptyString;
    "  try {";
    "    switch (event.type) {";
    "      case " ++ q ++ "checkout.session.completed" ++ q ++ ":";
    "        await handleCheckoutSessionCompleted(event.data.object as Stripe.Checkout.Session);";
    "        break;";
    EmptyString;
    "      case " ++ q ++ "payment_intent.succeeded" ++ q ++ ":";
    "        await handlePaymentIntentSucceeded(event.data.object as Stripe.PaymentIntent);";
    "        break;";
    EmptyString;
    "      case " ++ q ++ "payment_intent.payment_failed" ++ q ++ ":";
    "        await handlePaymentIntentFailed(event.data.object as Stripe.PaymentIntent);";
    "        break;";
    EmptyString;
    "      case " ++ q ++ "customer.subscription.created" ++ q ++ ":";
    "        console.log(" ++ q ++ "Subscription created:" ++ q ++ ", event.data.object);";
    "        break;";
    EmptyString;
    "      case " ++ q ++ "customer.subscription.updated" ++ q ++ ":";
    "        console.log(" ++ q ++ "Subscription updated:" ++ q ++ ", event.data.object);";
    "        break;";
    EmptyString;
    "      case " ++ q ++ "customer.subscription.deleted" ++ q ++ ":";
    "        console.log(" ++ q ++ "Subscription deleted:" ++ q ++ ", event.data.object);";
    "        break;";
    EmptyString;
    "      case " ++ q ++ "charge.refunded" ++ q ++ ":";
    "        console.log(" ++ q ++ "Charge refunded:" ++ q ++ ", event.data.object);";
    "        break;";
    EmptyString;
    "      default:";
    "        console.log(" ++ q ++ "Unhandled event type:" ++ q ++ ", event.type);";
    "    }";
    EmptyString;
    "    res.json({ received: true });";
    "  } catch (error) {";
    "    console.error(" ++ q ++ "Error processing webhook:" ++ q ++ ", error);";
    "    res.status(500).json({ error: " ++ q ++ "Webhook processing failed" ++ q ++ " });";
    "  }";
    "}";
    EmptyString;
    "async function handleCheckoutSessionCompleted(session: Stripe.Checkout.Session) {";
    "  const metadata = session.metadata || {};";
    "  ";
    "  await sendPaymentConfirmationNotification({";
    "    amount: session.amount_total || 0,";
    "    currency: session.currency || " ++ q ++ "usd" ++ q ++ ",";
    "    tier: metadata.tier || " ++ q ++ "school" ++ q ++ ",";
    "    billingInterval: metadata.billingInterval || " ++ q ++ "annual" ++ q ++ ",";
    "    customerEmail: session.customer_email || " ++ q ++ q ++ ",";
    "    customerName: metadata.customerName || " ++ q ++ q ++ ",";
    "    sessionId: session.id,";
    "  });";
    "}";
    EmptyString;
    "async function handlePaymentIntentSucceeded(intent: Stripe.PaymentIntent) {";
    "  const metadata = intent.metadata || {};";
    "  ";
    "  await sendPaymentConfirmationNotification({";
    "    amount: intent.amount,";
    "    currency: intent.currency,";
    "    tier: metadata.tier || " ++ q ++ "school" ++ q ++ ",";
    "    billingInterval: metadata.billingInterval || " ++ q ++ "annual" ++ q ++ ",";
    "    customerEmail: metadata.customerEmail || " ++ q ++ q ++ ",";
    "    customerName: metadata.customerName || " ++ q ++ q ++ ",";
    "    sessionId: intent.id,";
    "  });";
    "}";
    EmptyString;
    "async function handlePaymentIntentFailed(intent: Stripe.PaymentIntent) {";
    "  const metadata = intent.metadata || {};";
    "  ";
    "  await sendPaymentFailureNotification({";
    "    amount: intent.amount,";
    "    currency: intent.currency,";
    "    tier: metadata.tier || " ++ q ++ "school" ++ q ++ ",";
    "    billingInterval: metadata.billingInterval || " ++ q ++ "annual" ++ q ++ ",";
    "    customerEmail: metadata.customerEmail || " ++ q ++ q ++ ",";
    "    customerName: metadata.customerName || " ++ q ++ q ++ ",";
    "    failureReason: intent.last_payment_error?.message || " ++ q ++ "Unknown error" ++ q ++ ",";
    "    sessionId: intent.id,";
    "  });";
    "}"
  ]).

Definition generate_notification_helpers : Py string :=
  ret (lines [
    "// Add to server/paymentNotifications.ts";
    EmptyString;
    "import { getDb } from " ++ q ++ "./db" ++ q ++ ";";
    "import { createAdminNotification, getAdminNotificationPreferences } from " ++ q ++ "./notifications" ++ q ++ ";";
    EmptyString;
    "interface PaymentData {";
    "  amount: number;";
    "  currency: string;";
    "  tier: " ++ q ++ "school" ++ q ++ " | " ++ q ++ "district" ++ q ++ ";";
    "  billingInterval: " ++ q ++ "month" ++ q ++ " | " ++ q ++ "year" ++ q ++ ";";
    "  customerEmail: string;";
    "  customerName: string;";
    "  sessionId?: string;";
    "  failureReason?: string;";
    "  renewalDate?: Date;";
    "  subscriptionId?: string;";
    "  cancellationReason?: string;";
    "  refundReason?: string;";
    "  chargeId?: string;";
    "  refundId?: string;";
    "  paymentMethodType?: string;";
    "  last4?: string;";
    "}";
    EmptyString;
    "export async function sendPaymentConfirmationNotification(data: PaymentData) {";
    "  try {";
    "    const tierLabel = data.tier === " ++ q ++ "school" ++ q ++ " ? " ++ q ++ "School License" ++ q ++ " : " ++ q ++ "District License" ++ q ++ ";";
    "    const intervalLabel = data.billingInterval === " ++ q ++ "month" ++ q ++ " ? " ++ q ++ "Monthly" ++ q ++ " : " ++ q ++ "Annual" ++ q ++ ";";
    "    const amount = (data.amount / 100).toFixed(2);";
    EmptyString;
    "    const title = " ++ q ++ "Payment Confirmed ✓" ++ q ++ ";";
    "    const body = `${intervalLabel} ${tierLabel} subscription activated. Amount: $${amount} ${data.currency.toUpperCase()}. Customer: ${data.customerEmail}`;";
    EmptyString;
    "    const metadata = {";
    "      paymentType: " ++ q ++ "subscription" ++ q ++ ",";
    "      tier: data.tier,";
    "      amount: data.amount,";
    "      currency: data.currency,";
    "      billingInterval: data.billingInterval,";
    "      customerEmail: data.customerEmail,";
    "      customerName: data.customerName,";
    "      sessionId: data.sessionId,";
    "      timestamp: new Date().toISOString(),";
    "    };";
    EmptyString;
    "    const linkUrl = `/admin/payments?session=${data.sessionId}`;";
    EmptyString;
    "    await createAdminNotification({";
    "      type: " ++ q ++ "payment_success" ++ q ++ ",";
    "      title,";
    "      body,";
    "      linkUrl,";
    "      metadata,";
    "    });";
    EmptyString;
    "    console.log(" ++ q ++ "Payment confirmation notification sent" ++ q ++ ");";
    "  } catch (error) {";
    "    console.error(" ++ q ++ "Failed to send payment confirmation notification:" ++ q ++ ", error);";
    "  }";
    "}";
    EmptyString;
    "export async function sendPaymentFailureNotification(data: PaymentData) {";
    "  try {";
    "    const tierLabel = data.tier === " ++ q ++ "school" ++ q ++ " ? " ++ q ++ "School License" ++ q ++ " : " ++ q ++ "District License" ++ q ++ ";";
    "    const intervalLabel = data.billingInterval === " ++ q ++ "month" ++ q ++ " ? " ++ q ++ "Monthly" ++ q ++ " : " ++ q ++ "Annual" ++ q ++ ";";
    "    const amount = (data.amount / 100).toFixed(2);";
    EmptyString;
    "    const title = " ++ q ++ "Payment Failed ✗" ++ q ++ ";";
    "    const body = `${intervalLabel} ${tierLabel} subscription failed. Amount: $${amount} ${data.currency.toUpperCase()}. Reason: ${data.failureReason}. Customer: ${data.customerEmail}`;";
    EmptyString;
    "    const metadata = {";
    "      paymentType: " ++ q ++ "subscription" ++ q ++ ",";
    "      tier: data.tier,";
    "      amount: data.amount,";
    "      currency: data.currency,";
    "      billingInterval: data.billingInterval,";
    "      customerEmail: data.customerEmail,";
    "      customerName: data.customerName,";
    "      failureReason: data.failureReason,";
    "      sessionId: data.sessionId,";
    "      timestamp: new Date().toISOString(),";
    "    };";
    EmptyString;
    "    const linkUrl = `/admin/payments?session=${data.sessionId}&status=failed`;";
    EmptyString;
    "    await createAdminNotification({";
    "      type: " ++ q ++ "payment_failed" ++ q ++ ",";
    "      title,";
    "      body,";
    "      linkUrl,";
    "      metadata,";
    "    });";
    EmptyString;
    "    console.log(" ++ q ++ "Payment failure notification sent" ++ q ++ ");";
    "  } catch (error) {";
    "    console.error(" ++ q ++ "Failed to send payment failure notification:" ++ q ++ ", error);";
    "  }";
    "}"
  ]).

(** ** The entry point *)

Definition main (argv : list string) : Py unit :=
  (if (Z.of_nat (length argv) <? 2)%Z then
     print ["Usage: python setup_payment_notifications.py <project-path>"] ;;
     sys_exit 1
   else ret tt) ;;
  arg1 <- getitem argv 1 ;;
  let project_path := Path arg1 in
  print ["📦 Payment Notification System Setup"] ;;
  print [mul "=" 50] ;;
  print [] ;;
  print ["Generated code snippets:"] ;;
  print [] ;;
  print ["1. Notification Types (shared/notifications.ts)"] ;;
  print [mul "-" 50] ;;
  t <- generate_notification_types ;;
  print [t] ;;
  print [] ;;
  print ["2. Database Schema (drizzle/schema.ts)"] ;;
  print [mul "-" 50] ;;
  t <- generate_database_schema ;;
  print [t] ;;
  print [] ;;
  print ["3. Webhook Handler (server/_core/stripeWebhook.ts)"] ;;
  print [mul "-" 50] ;;
  t <- generate_webhook_handler ;;
  print [t] ;;
  print [] ;;
  print ["4. Notification Helpers (server/paymentNotifications.ts)"] ;;
  print [mul "-" 50] ;;
  t <- generate_notification_helpers ;;
  print [t] ;;
  print [] ;;
  print [mul "=" 50] ;;
  print ["✅ Code generation complete!"] ;;
  print [] ;;
  print ["Next steps:"] ;;
  print ["1. Copy the generated code snippets into your project"] ;;
  print ["2. Run 'pnpm db:push' to apply database migrations"] ;;
  print ["3. Register the webhook endpoint in your server"] ;;
  print ["4. Test with Stripe CLI: stripe listen --forward-to localhost:3000/api/stripe/webhook"].

(** The exit status of the process: [0] when the script runs to its end,
    the code of [sys.exit], [1] for any other uncaught exception. *)
Definition exit_status (o : outcome unit) : Z :=
  match o with
  | Returned _ => 0
  | Raised (SystemExit code) => code
  | Raised IndexError => 1
  | Raised UnicodeEncodeError => 1
  end.

(** Running the script as [__main__]: the status and the world it leaves. *)
Definition run (argv : list string) (w : World) : Z * World :=
  let (o, w') := main argv w in (exit_status o, w').

(** The same machine with nothing written to standard output yet. *)
Definition fresh (w : World) : World :=
  {| environ := environ w; files := files w; network := network w;
     clock := clock w; entropy := entropy w;
     stdout_codec := stdout_codec w; stdout := EmptyString |}.

(** The text a run writes, from the start of the process. *)
Definition output (argv : list string) (w : World) : string :=
  stdout (snd (run argv (fresh w))).

Definition status (argv : list string) (w : World) : Z :=
  fst (run argv w).

(** ** Names used in the statements *)

(** The one line printed when the path argument is missing. *)
Definition usage_line : string :=
  "Usage: python setup_payment_notifications.py <project-path>".

(** The four section headers, in the order [main] prints them. *)
Definition section_headers : list string :=
  [ "1. Notification Types (shared/notifications.ts)";
    "2. Database Schema (drizzle/schema.ts)";
    "3. Webhook Handler (server/_core/stripeWebhook.ts)";
    "4. Notification Helpers (server/paymentNotifications.ts)" ].

(** The fixed lines of the report that are not template text. *)
Definition report_lines : list string :=
  ([ "Payment Notification System Setup"; "Generated code snippets:" ]
   ++ section_headers
   ++ [ "Code generation complete!"; "Next steps:";
        "1. Copy the generated code snippets into your project";
        "2. Run 'pnpm db:push' to apply database migrations";
        "3. Register the webhook endpoint in your server";
        "4. Test with Stripe CLI" ])%list.

(** The event types the webhook template is expected to dispatch on. *)
Definition event_types : list string :=
  [ "checkout.session.completed"; "payment_intent.succeeded";
    "payment_intent.payment_failed"; "customer.subscription.created";
    "customer.subscription.updated"; "customer.subscription.deleted";
    "charge.refunded" ].

(** The whole report, as one run on an empty machine writes it. *)
Definition transcript : string :=
  Eval vm_compute in output ["setup_payment_notifications.py"; "."] boot.

(** The four generators, in the order [main] calls them. *)
Definition generators : list (Py string) :=
  [ generate_notification_types; generate_database_schema;
    generate_webhook_handler; generate_notification_helpers ].

(** A call returns [s] and leaves the world as it found it, whatever the
    world is. *)
Definition returns_constant {A} (c : Py A) (a : A) : Prop :=
  forall w, c w = (Returned a, w).

(** A [case] clause of the template for the event type [l]. *)
Definition case_clause (l : string) : string := "case " ++ q ++ l ++ q ++ ":".

(** The four characters outside ASCII that the report holds: the parcel of
    the banner, the check mark and the cross of the helper template, and
    the tick of the closing line. *)
Definition report_chars : list string := [ "📦"; "✓"; "✗"; "✅" ].

(** Standard output can encode every character of the report. *)
Definition can_encode_report (w : World) : Prop :=
  forall ch, In ch report_chars -> stdout_codec w ch <> None.

(** Standard output is a UTF-8 stream. *)
Definition utf8_stdout (w : World) : Prop :=
  forall ch, stdout_codec w ch = Some ch.

(** Two streams treat the characters of the report alike. *)
Definition agree (c c' : Codec.codec) : Prop :=
  forall ch, In ch report_chars -> c ch = c' ch.

(** All characters of a text are ASCII or among those of the report. *)
Definition covered (s : string) : bool :=
  forallb (fun ch => Codec.is_ascii_char ch
                     || existsb (String.eqb ch) report_chars)
          (Codec.chars s).

(** The stream has bytes for each of the four characters. *)
Definition encodes_all (c : Codec.codec) : bool :=
  forallb (fun ch => match c ch with Some _ => true | None => false end)
          report_chars.

(** The first two lines of the report, after the parcel. *)
Definition banner_rest : string :=
  " Payment Notification System Setup" ++ nl ++ mul "=" 50 ++ nl.

(** What a statement does, as a function of the stream alone: how it ends
    and the pieces it appends to standard output. *)
Definition trace (A : Type) : Type :=
  Codec.codec -> outcome A * list string.

Definition trace_ret {A} (a : A) : trace A := fun _ => (Returned a, []).

Definition trace_raise {A} (e : exn) : trace A := fun _ => (Raised e, []).

Definition trace_write (s : string) : trace unit :=
  fun c =>
    match Codec.encode_each c (Codec.chars s) with
    | Some pieces => (Returned tt, pieces)
    | None => (Raised UnicodeEncodeError, [])
    end.

Definition trace_bind {A B} (F : trace A) (G : A -> trace B) : trace B :=
  fun c =>
    match F c with
    | (Returned a, t) => let (o, t') := G a c in (o, (t ++ t')%list)
    | (Raised e, t) => (Raised e, t)
    end.

(** A statement follows a trace: in every world it ends as the trace says
    and appends the pieces of the trace to standard output, touching
    nothing else; and the trace looks at the stream only for the characters
    of the report. *)
Definition emits {A} (stmt : Py A) (F : trace A) : Prop :=
  (forall w, stmt w = (fst (F (stdout_codec w)),
                       write_stdout (Codec.flatten (snd (F (stdout_codec w)))) w))
  /\ (forall c c', agree c c' -> F c = F c').

(** The stream that treats the four characters of the report as given and
    encodes no other. *)
Definition stream_of (box check cross tick : option string) : Codec.codec :=
  fun ch =>
    if String.eqb ch "📦" then box
    else if String.eqb ch "✓" then check
    else if String.eqb ch "✗" then cross
    else if String.eqb ch "✅" then tick
    else None.

(** ** Reading the generated text back *)

Module Scan.

Import Str.

(** Letters, digits, underscore and dollar: what a TypeScript identifier is
    made of. *)
Definition ident_char (c : ascii) : bool :=
  let n := nat_of_ascii c in
  ((48 <=? n) && (n <=? 57) || (65 <=? n) && (n <=? 90) ||
   (97 <=? n) && (n <=? 122) || (n =? 95) || (n =? 36))%nat.

(** The identifier a text starts with. *)
Fixpoint identifier (s : string) : string :=
  match s with
  | EmptyString => EmptyString
  | String c s' =>
      if ident_char c then String c (identifier s') else EmptyString
  end.

(** The identifiers that follow the occurrences of [kw], in order. *)
Fixpoint words_after (kw s : string) : list string :=
  match s with
  | EmptyString => []
  | String _ s' =>
      (match strip_prefix kw s with
       | Some r => [identifier r]
       | None => []
       end ++ words_after kw s')%list
  end.

(** The quoted texts that follow the occurrences of [kw], in order. *)
Fixpoint quoted_after (kw s : string) : list string :=
  match s with
  | EmptyString => []
  | String _ s' =>
      (match strip_prefix (kw ++ q) s with
       | Some r => [until_quote r]
       | None => []
       end ++ quoted_after kw s')%list
  end.

(** The text between the first [a] and the first [b] after it. *)
Definition between (a b s : string) : option string :=
  match partition a s with
  | Some (_, r) =>
      match partition b r with
      | Some (m, _) => Some m
      | None => None
      end
  | None => None
  end.

(** The text cut on its line feeds. *)
Fixpoint lines_of (s : string) : list string :=
  match s with
  | EmptyString => [EmptyString]
  | String c s' =>
      if Ascii.eqb c "010"%char then EmptyString :: lines_of s'
      else match lines_of s' with
           | l :: ls => String c l :: ls
           | [] => [String c EmptyString]
           end
  end.

Definition first_line (s : string) : string := hd EmptyString (lines_of s).

Fixpoint after_line (start : string) (ls : list string) : list string :=
  match ls with
  | [] => []
  | l :: ls' => if String.eqb l start then ls' else after_line start ls'
  end.

Fixpoint until_line (stop : string) (ls : list string) : list string :=
  match ls with
  | [] => []
  | l :: ls' => if String.eqb l stop then [] else l :: until_line stop ls'
  end.

Fixpoint skip_spaces (s : string) : string :=
  match s with
  | String c s' => if Ascii.eqb c " "%char then skip_spaces s' else s
  | EmptyString => EmptyString
  end.

(** The key and the quoted value of one line [key: "value",] of a table. *)
Definition entry (l : string) : string * string :=
  (identifier (skip_spaces l),
   match partition q l with
   | Some (_, r) => until_quote r
   | None => EmptyString
   end).

(** The entries of the table [export const name = { ... } as const;]. *)
Definition table (name text : string) : list (string * string) :=
  map entry
    (until_line "} as const;"
       (after_line ("export const " ++ name ++ " = {") (lines_of text))).

(** A text in upper case. *)
Definition upper_char (c : ascii) : ascii :=
  let n := nat_of_ascii c in
  if ((97 <=? n) && (n <=? 122))%nat then ascii_of_nat (n - 32) else c.

Fixpoint upper (s : string) : string :=
  match s with
  | EmptyString => EmptyString
  | String c s' => String (upper_char c) (upper s')
  end.

(** Round, square and curly brackets are properly nested. *)
Fixpoint nested (open : list ascii) (s : string) : bool :=
  match s with
  | EmptyString => match open with [] => true | _ :: _ => false end
  | String c s' =>
      if (Ascii.eqb c "("%char || Ascii.eqb c "["%char || Ascii.eqb c "{"%char)
      then nested (c :: open) s'
      else if Ascii.eqb c ")"%char then
        match open with
        | o :: rest => Ascii.eqb o "("%char && nested rest s'
        | [] => false
        end
      else if Ascii.eqb c "]"%char then
        match open with
        | o :: rest => Ascii.eqb o "["%char && nested rest s'
        | [] => false
        end
      else if Ascii.eqb c "}"%char then
        match open with
        | o :: rest => Ascii.eqb o "{"%char && nested rest s'
        | [] => false
        end
      else nested open s'
  end.

Definition balanced (s : string) : bool := nested [] s.

(** Every byte is below 128. *)
Fixpoint is_ascii (s : string) : bool :=
  match s with
  | EmptyString => true
  | String c s' => (nat_of_ascii c <? 128)%nat && is_ascii s'
  end.

(** Membership and inclusion of texts in lists, decided. *)
Definition mem (x : string) (xs : list string) : bool :=
  existsb (String.eqb x) xs.

Definition all_in (xs ys : list string) : bool :=
  forallb (fun x => mem x ys) xs.

Fixpoint distinct (xs : list string) : bool :=
  match xs with
  | [] => true
  | x :: xs' => negb (mem x xs') && distinct xs'
  end.

End Scan.

Import Scan.

(** The section of the report under the header [h], up to the blank line
    before [next]. *)
Definition snippet (h next out : string) : option string :=
  between (h ++ nl ++ mul "-" 50 ++ nl) (nl ++ nl ++ next) out.

(** What follows each section: the next header, or the closing rule. *)
Definition section_ends : list string :=
  (tl section_headers ++ [mul "=" 50])%list.

(** The clause for the event type [l] runs to a [break;] before any other
    clause starts. *)
Definition clause_breaks (body l : string) : bool :=
  match between (case_clause l) "break;" body with
  | Some seg => negb (contains "case " seg) && negb (contains "default:" seg)
  | None => false
  end.

(** ** Facts about text *)

Section StrFacts.

Lemma append_empty_r (s : string) : s ++ EmptyString = s.
Proof. induction s as [|c s IH]; simpl; [reflexivity | now rewrite IH]. Qed.

Lemma append_assoc (a b c : string) : (a ++ b) ++ c = a ++ b ++ c.
Proof. induction a as [|x a IH]; simpl; [reflexivity | now rewrite IH]. Qed.

Lemma strip_prefix_spec (m s r : string) :
  strip_prefix m s = Some r <-> s = m ++ r.
Proof.
  revert s; induction m as [|a m IH]; intros s; simpl.
  - split; [now intros [= ->] | now intros ->].
  - destruct s as [|b s].
    + split; discriminate.
    + destruct (Ascii.eqb_spec a b) as [->|ne].
      * rewrite IH. split; [now intros -> | now intros [= ->]].
      * split; [discriminate | intros [= e _]; now elim ne].
Qed.

Lemma partition_sound (m : string) :
  forall s p r, partition m s = Some (p, r) -> s = p ++ m ++ r.
Proof.
  induction s as [|c s IH]; intros p r; simpl.
  - destruct (strip_prefix m EmptyString) as [r0|] eqn:E; [|discriminate].
    intros [= <- <-]. now apply strip_prefix_spec in E.
  - destruct (strip_prefix m (String c s)) as [r0|] eqn:E.
    + intros [= <- <-]. now apply strip_prefix_spec in E.
    + destruct (partition m s) as [[p0 r0]|] eqn:F; [|discriminate].
      intros [= <- <-]. simpl. f_equal. now apply IH.
Qed.

Lemma partition_complete (m r : string) :
  forall p, partition m (p ++ m ++ r) <> None.
Proof.
  induction p as [|c p IH].
  - change (EmptyString ++ m ++ r) with (m ++ r).
    destruct (m ++ r) as [|c s] eqn:E; simpl;
      (destruct (strip_prefix m _) as [r0|] eqn:F; [discriminate|]);
      rewrite <- E in F;
      pose proof (proj2 (strip_prefix_spec m (m ++ r) r) eq_refl) as G;
      congruence.
  - change (String c p ++ m ++ r) with (String c (p ++ m ++ r)).
    simpl. destruct (strip_prefix m _) as [r0|]; [discriminate|].
    destruct (partition m (p ++ m ++ r)) as [[p0 r0]|]; [discriminate|].
    now elim IH.
Qed.

Lemma contains_spec (m s : string) :
  contains m s = true <-> substring_of m s.
Proof.
  unfold contains, substring_of. split.
  - destruct (partition m s) as [[p r]|] eqn:E; [|discriminate].
    intros _. exists p, r. now apply partition_sound.
  - intros (p & r & ->).
    pose proof (partition_complete m r p) as H.
    now destruct (partition m (p ++ m ++ r)).
Qed.

Lemma contains_false (m s : string) :
  contains m s = false -> ~ substring_of m s.
Proof.
  intros E H. apply contains_spec in H. congruence.
Qed.

Lemma in_order_sound :
  forall ms s, in_order ms s = true -> appear_in_order ms s.
Proof.
  induction ms as [|m ms IH]; intros s; simpl; [trivial|].
  destruct (partition m s) as [[p r]|] eqn:E; [|discriminate].
  intros H. exists p, r. split; [now apply partition_sound | now apply IH].
Qed.

Lemma length_app (a b : string) :
  String.length (a ++ b) = (String.length a + String.length b)%nat.
Proof. induction a as [|x a IH]; simpl; [reflexivity | now rewrite IH]. Qed.

Lemma app_inv_head (a b c : string) : a ++ b = a ++ c -> b = c.
Proof.
  induction a as [|x a IH]; simpl; [trivial|]. intros [= H]. now apply IH.
Qed.

Lemma appear_in_order_skip (ms : list string) (p s : string) :
  appear_in_order ms s -> appear_in_order ms (p ++ s).
Proof.
  destruct ms as [|m ms]; simpl; [trivial|].
  intros (p1 & r & -> & H). exists (p ++ p1), r.
  split; [now rewrite append_assoc | assumption].
Qed.

(** A text that starts, after any prefix, with more than [u] holds is not
    [u]. *)
Lemma longer_differs (x b u p : string) :
  strip_prefix p b <> None ->
  (String.length u < String.length p)%nat ->
  x ++ b <> u.
Proof.
  intros Hp Hlen E.
  destruct (strip_prefix p b) as [r|] eqn:S; [|now elim Hp].
  apply strip_prefix_spec in S. subst b.
  apply (f_equal String.length) in E. rewrite !length_app in E. lia.
Qed.

End StrFacts.

(** ** Facts about encoding *)

Section CodecFacts.

Import Codec.

Lemma flatten_app (a b : list string) :
  flatten (a ++ b) = flatten a ++ flatten b.
Proof.
  induction a as [|x a IH]; simpl; [reflexivity|].
  now rewrite IH, append_assoc.
Qed.

Lemma encode_char_agree (c c' : codec) (ch : string) :
  agree c c' ->
  is_ascii_char ch || existsb (String.eqb ch) report_chars = true ->
  encode_char c ch = encode_char c' ch.
Proof.
  intros H Hch. unfold encode_char.
  destruct (is_ascii_char ch); [reflexivity|]. rewrite orb_false_l in Hch.
  apply existsb_exists in Hch as (y & Hy & E).
  apply String.eqb_eq in E. subst y. now apply H.
Qed.

Lemma encode_each_agree (c c' : codec) (chs : list string) :
  agree c c' ->
  forallb (fun ch => is_ascii_char ch
                     || existsb (String.eqb ch) report_chars) chs = true ->
  encode_each c chs = encode_each c' chs.
Proof.
  intros H. induction chs as [|ch chs IH]; simpl; [reflexivity|].
  intros Hall. apply andb_prop in Hall as [Hch Hall].
  rewrite (encode_char_agree c c' ch H Hch), (IH Hall). reflexivity.
Qed.

Lemma agree_stream_of (c : codec) :
  agree c (stream_of (c "📦") (c "✓") (c "✗") (c "✅")).
Proof.
  intros ch Hin. unfold report_chars in Hin. simpl in Hin.
  destruct Hin as [<-|[<-|[<-|[<-|[]]]]]; reflexivity.
Qed.

Lemma agree_pointwise (c c' : codec) :
  (forall ch, c ch = c' ch) -> agree c c'.
Proof. intros H ch _. apply H. Qed.

End CodecFacts.

(** ** Facts about statements *)

Section Emits.

Import Codec.

Lemma write_stdout_empty (w : World) : write_stdout EmptyString w = w.
Proof.
  destruct w; unfold write_stdout; simpl. now rewrite append_empty_r.
Qed.

Lemma write_stdout_twice (a b : string) (w : World) :
  write_stdout b (write_stdout a w) = write_stdout (a ++ b) w.
Proof.
  unfold write_stdout; simpl. now rewrite append_assoc.
Qed.

Lemma emits_ret {A} (a : A) : emits (ret a) (trace_ret a).
Proof.
  split; [|reflexivity]. intros w. simpl. now rewrite write_stdout_empty.
Qed.

Lemma emits_raise {A} (e : exn) : emits (@raise A e) (trace_raise e).
Proof.
  split; [|reflexivity]. intros w. simpl. now rewrite write_stdout_empty.
Qed.

Lemma emits_write (s : string) :
  covered s = true -> emits (write s) (trace_write s).
Proof.
  intros Hs. split.
  - intros w. unfold write, trace_write, encode.
    destruct (encode_each (stdout_codec w) (chars s)); simpl;
      [reflexivity | now rewrite write_stdout_empty].
  - intros c c' H. unfold trace_write.
    now rewrite (encode_each_agree c c' (chars s) H Hs).
Qed.

Lemma emits_bind {A B} (m : Py A) (k : A -> Py B) F G :
  emits m F -> (forall a, emits (k a) (G a)) ->
  emits (bind m k) (trace_bind F G).
Proof.
  intros [Hm Lm] Hk. split.
  - intros w. unfold bind, trace_bind. rewrite (Hm w).
    destruct (F (stdout_codec w)) as [[a|e] t]; simpl; [|reflexivity].
    rewrite (proj1 (Hk a)). simpl.
    destruct (G a (stdout_codec w)) as [o t']. simpl.
    now rewrite write_stdout_twice, flatten_app.
  - intros c c' H. unfold trace_bind. rewrite (Lm c c' H).
    destruct (F c') as [[a|e] t]; [|reflexivity].
    now rewrite (proj2 (Hk a) c c' H).
Qed.

Lemma emits_bind_ret {A B} (a : A) (k : A -> Py B) G :
  emits (k a) G -> emits (bind (ret a) k) G.
Proof.
  intros [H L]. split; [|exact L]. intros w. unfold bind, ret. apply H.
Qed.

Lemma bind_raised {A B} (m : Py A) (k : A -> Py B) e w w' :
  m w = (Raised e, w') -> bind m k w = (Raised e, w').
Proof. intros H. unfold bind. now rewrite H. Qed.

Lemma getitem_second {A} (x y : A) (rest : list A) :
  getitem (x :: y :: rest) 1 = ret y.
Proof.
  unfold getitem. change (1 <? 0)%Z with false. cbv iota.
  replace ((1 <? 0) || (Z.of_nat (length (x :: y :: rest)) <=? 1))%Z with false.
  - reflexivity.
  - symmetry. apply orb_false_iff. split; [reflexivity|].
    apply Z.leb_gt. simpl length. lia.
Qed.

Lemma short_argv (argv : list string) :
  (length argv < 2)%nat -> (Z.of_nat (length argv) <? 2)%Z = true.
Proof. intros H. apply Z.ltb_lt. lia. Qed.

Lemma long_argv (argv : list string) :
  (2 <= length argv)%nat ->
  (Z.of_nat (length argv) <? 2)%Z = false /\
  exists prog a rest, argv = prog :: a :: rest.
Proof.
  intros H. split; [apply Z.ltb_ge; lia|].
  destruct argv as [|prog [|a rest]]; simpl in H; try lia. now eauto.
Qed.

Ltac run_step :=
  lazymatch goal with
  | |- emits (bind (ret _) _) _ =>
      apply emits_bind_ret; cbv beta zeta; run_step
  | |- emits (bind _ _) _ =>
      eapply emits_bind; [run_step | intros ?; cbv beta zeta; run_step]
  | |- emits (write _) _ => apply emits_write; vm_compute; reflexivity
  | |- emits (ret _) _ => apply emits_ret
  | |- emits (raise _) _ => apply emits_raise
  end.

Ltac open_prints :=
  unfold sys_exit; cbv beta iota fix delta [print write_args].

(** The trace of the report: what [main] does once an argument is there. *)
Lemma report_trace :
  { F : trace unit
  | forall argv, (2 <= length argv)%nat -> emits (main argv) F }.
Proof.
  eexists. intros argv H.
  destruct (long_argv argv H) as (G & prog & a & rest & ->).
  unfold main. rewrite G, getitem_second.
  unfold generate_notification_types, generate_database_schema,
    generate_webhook_handler, generate_notification_helpers.
  open_prints. run_step.
Defined.

Lemma main_long (argv : list string) (w : World) :
  (2 <= length argv)%nat ->
  main argv w
  = (fst (proj1_sig report_trace (stdout_codec w)),
     write_stdout (flatten (snd (proj1_sig report_trace (stdout_codec w)))) w).
Proof. intros H. apply (proj1 (proj2_sig report_trace argv H)). Qed.

Lemma report_agree (c c' : codec) :
  agree c c' -> proj1_sig report_trace c = proj1_sig report_trace c'.
Proof.
  apply (proj2 (proj2_sig report_trace [EmptyString; EmptyString]
                  (le_n 2))).
Qed.

Lemma report_cases (c : codec) :
  proj1_sig report_trace c
  = proj1_sig report_trace (stream_of (c "📦") (c "✓") (c "✗") (c "✅")).
Proof. apply report_agree, agree_stream_of. Qed.

Lemma main_short (argv : list string) (w : World) :
  (length argv < 2)%nat ->
  main argv w = (Raised (SystemExit 1), write_stdout (usage_line ++ nl) w).
Proof.
  intros H. unfold main. rewrite (short_argv argv H).
  apply bind_raised.
  eassert (E : emits (print [usage_line] ;; sys_exit 1) _)
    by (open_prints; run_step).
  unfold usage_line in E. rewrite (proj1 E w). vm_compute. reflexivity.
Qed.

End Emits.

(** ** The script as a whole *)

Ltac computed := vm_compute; reflexivity.

(** Replace a term of the goal by its value. *)
Ltac evaluate t :=
  let v := eval vm_compute in t in
  replace t with v by (vm_compute; reflexivity).

(** Split on what the stream does with each character of the report. *)
Ltac by_stream c :=
  rewrite ?(report_cases c);
  unfold encodes_all, report_chars; cbn [forallb];
  destruct (c "📦") as [box|], (c "✓") as [check|],
           (c "✗") as [cross|], (c "✅") as [tick|].

Section Runs.

Import Codec.

Lemma run_short (argv : list string) (w : World) :
  (length argv < 2)%nat ->
  run argv w = (1%Z, write_stdout (usage_line ++ nl) w).
Proof. intros H. unfold run. now rewrite (main_short argv w H). Qed.

Lemma run_long (argv : list string) (w : World) :
  (2 <= length argv)%nat ->
  run argv w
  = (exit_status (fst (proj1_sig report_trace (stdout_codec w))),
     write_stdout (flatten (snd (proj1_sig report_trace (stdout_codec w)))) w).
Proof. intros H. unfold run. now rewrite (main_long argv w H). Qed.

Lemma output_short (argv : list string) (w : World) :
  (length argv < 2)%nat -> output argv w = usage_line ++ nl.
Proof. intros H. unfold output. now rewrite run_short. Qed.

Lemma output_long (argv : list string) (w : World) :
  (2 <= length argv)%nat ->
  output argv w = flatten (snd (proj1_sig report_trace (stdout_codec w))).
Proof. intros H. unfold output. now rewrite run_long. Qed.

Lemma short_or_long (argv : list string) :
  {(length argv < 2)%nat} + {(2 <= length argv)%nat}.
Proof. destruct (le_lt_dec 2 (length argv)); [now right | now left]. Qed.

Lemma short_ltb (argv : list string) :
  (length argv < 2)%nat -> (length argv <? 2)%nat = true.
Proof. intros H. now apply Nat.ltb_lt. Qed.

Lemma long_ltb (argv : list string) :
  (2 <= length argv)%nat -> (length argv <? 2)%nat = false.
Proof. intros H. now apply Nat.ltb_ge. Qed.

Lemma can_encode_iff (w : World) :
  can_encode_report w <-> encodes_all (stdout_codec w) = true.
Proof.
  unfold can_encode_report, encodes_all. rewrite forallb_forall.
  split; intros H ch Hin; specialize (H ch Hin);
    now destruct (stdout_codec w ch).
Qed.

(** How the report ends: it returns when the stream has all four
    characters and stops on [UnicodeEncodeError] otherwise. *)
Lemma report_outcome (c : codec) :
  fst (proj1_sig report_trace c)
  = if encodes_all c then Returned tt else Raised UnicodeEncodeError.
Proof. by_stream c; computed. Qed.

(** On a stream that has all four characters the headers are written, in
    their order. *)
Lemma report_headers (c : codec) :
  encodes_all c = true ->
  appear_in_order section_headers (flatten (snd (proj1_sig report_trace c))).
Proof.
  by_stream c; try discriminate. intros _.
  match goal with |- appear_in_order _ ?t => evaluate t end.
  apply appear_in_order_skip, in_order_sound. computed.
Qed.

(** Whatever the stream, the report is not the usage line. *)
Lemma report_not_usage (c : codec) :
  flatten (snd (proj1_sig report_trace c)) <> usage_line ++ nl.
Proof.
  by_stream c;
    match goal with |- ?t <> _ => evaluate t end;
    try discriminate;
    (apply (longer_differs _ _ _ banner_rest);
     [vm_compute; discriminate | apply Nat.ltb_lt; computed]).
Qed.

Lemma report_utf8 (c : codec) :
  (forall ch, c ch = Some ch) ->
  fst (proj1_sig report_trace c) = Returned tt /\ flatten (snd (proj1_sig report_trace c)) = transcript.
Proof.
  intros H. rewrite (report_agree c utf8) by now apply agree_pointwise.
  split; computed.
Qed.

End Runs.

Ltac by_search := first [apply contains_spec | apply contains_false];
                  vm_compute; reflexivity.

Ltac constant := intros ?; reflexivity.

Ltac fields :=
  cbn [fst snd environ files network clock entropy stdout_codec stdout
       write_stdout].

Ltac fields_in H :=
  cbn [fst snd environ files network clock entropy stdout_codec stdout
       write_stdout] in H.

Section ScanFacts.

Lemma mem_In (x : string) (xs : list string) : mem x xs = true -> In x xs.
Proof.
  unfold mem. intros H. apply existsb_exists in H as (y & Hy & E).
  apply String.eqb_eq in E. now subst.
Qed.

Lemma mem_not_In (x : string) (xs : list string) :
  mem x xs = false -> ~ In x xs.
Proof.
  unfold mem. intros H Hin.
  assert (E : existsb (String.eqb x) xs = true).
  { apply existsb_exists. exists x. split; [assumption | apply String.eqb_refl]. }
  congruence.
Qed.

Lemma all_in_incl (xs ys : list string) : all_in xs ys = true -> incl xs ys.
Proof.
  unfold all_in. intros H x Hx.
  apply mem_In. now apply (proj1 (forallb_forall _ _) H).
Qed.

Lemma distinct_NoDup (xs : list string) : distinct xs = true -> NoDup xs.
Proof.
  induction xs as [|x xs IH]; simpl; intros H; constructor.
  - apply andb_prop in H as [H _]. apply mem_not_In.
    now destruct (mem x xs).
  - apply IH. now apply andb_prop in H as [_ H].
Qed.

End ScanFacts.

(** ** Properties of the script *)



(** C2, as the claim has it, fails: on a strict ASCII standard output the
    run with one argument stops at the banner, writes nothing and ends with
    status 1. *)
Lemma one_argument_fails_on_ascii_terminal :
  status ["setup_payment_notifications.py"; "/tmp/a"] ascii_terminal = 1%Z /\
  output ["setup_payment_notifications.py"; "/tmp/a"] ascii_terminal
    = EmptyString /\
  ~ appear_in_order section_headers
      (output ["setup_payment_notifications.py"; "/tmp/a"] ascii_terminal).
Proof.
  assert (E : output ["setup_payment_notifications.py"; "/tmp/a"]
                ascii_terminal = EmptyString) by computed.
  split; [computed|]. split; [exact E|]. rewrite E.
  intros (p & r & F & _). destruct p; discriminate.
Qed.

(** C2, amended: with exactly one argument, whatever its text, on a
    standard output that can encode the four characters of the report
    outside ASCII, the process ends with status 0 and what it wrote
    contains the four section headers in the order notification types,
    database schema, webhook handler, notification helpers. *)
Theorem one_argument_prints_sections (prog a : string) (w : World) :
  can_encode_report w ->
  status [prog; a] w = 0%Z /\
  stdout (snd (run [prog; a] w)) = stdout w ++ output [prog; a] w /\
  appear_in_order section_headers (output [prog; a] w).
Proof.
  intros Hw. apply can_encode_iff in Hw.
  assert (H : (2 <= length [prog; a])%nat) by (simpl; lia).
  unfold status. rewrite run_long, output_long by assumption. fields.
  rewrite report_outcome, Hw.
  split; [reflexivity|]. split; [reflexivity|]. now apply report_headers.
Qed.

Lemma one_argument_prints_sections_witness :
  status ["setup_payment_notifications.py"; "/tmp/a"] boot = 0%Z /\
  stdout (snd (run ["setup_payment_notifications.py"; "/tmp/a"] boot))
    = stdout boot
      ++ output ["setup_payment_notifications.py"; "/tmp/a"] boot /\
  appear_in_order section_headers
    (output ["setup_payment_notifications.py"; "/tmp/a"] boot).
Proof.
  apply (one_argument_prints_sections
           "setup_payment_notifications.py" "/tmp/a" boot).
  intros ch _. simpl. discriminate.
Defined.

(** C3, as the claim has it, fails: the same argument list gives other
    bytes and another status on a strict ASCII standard output than on a
    UTF-8 one. *)
Lemma runs_differ_between_streams :
  output ["setup_payment_notifications.py"; "."] boot
    <> output ["setup_payment_notifications.py"; "."] ascii_terminal /\
  status ["setup_payment_notifications.py"; "."] boot
    <> status ["setup_payment_notifications.py"; "."] ascii_terminal.
Proof.
  split.
  - intros E. apply (f_equal String.length) in E.
    vm_compute in E. discriminate.
  - vm_compute. discriminate.
Qed.

(** C3, amended: two runs with the same argument list on standard outputs
    that encode alike write the same bytes and end with the same status,
    whatever the environment, the files, the network, the clock and the
    random source are at each run. *)
Theorem runs_are_repeatable (argv : list string) (w1 w2 : World) :
  (forall ch, stdout_codec w1 ch = stdout_codec w2 ch) ->
  output argv w1 = output argv w2 /\ status argv w1 = status argv w2.
Proof.
  intros Hc. apply agree_pointwise in Hc.
  unfold status. destruct (short_or_long argv) as [H|H].
  - now rewrite !output_short, !run_short by assumption.
  - rewrite !output_long, !run_long by assumption. fields.
    now rewrite (report_agree _ _ Hc).
Qed.

Lemma runs_are_repeatable_witness :
  output ["setup_payment_notifications.py"; "."] boot
    = output ["setup_payment_notifications.py"; "."] another_day /\
  status ["setup_payment_notifications.py"; "."] boot
    = status ["setup_payment_notifications.py"; "."] another_day.
Proof.
  apply (runs_are_repeatable
           ["setup_payment_notifications.py"; "."] boot another_day).
  intros ch. reflexivity.
Defined.

(** C4: two runs that each have at least one argument write the same
    bytes, whatever the arguments are. *)
Theorem output_ignores_argument_values (argv1 argv2 : list string) (w : World) :
  (2 <= length argv1)%nat -> (2 <= length argv2)%nat ->
  output argv1 w = output argv2 w.
Proof. intros H1 H2. now rewrite !output_long by assumption. Qed.

Lemma output_ignores_argument_values_witness :
  output ["setup_payment_notifications.py"; "/tmp/a"] boot
  = output ["setup_payment_notifications.py"; "/tmp/b"] boot.
Proof.
  apply (output_ignores_argument_values
           ["setup_payment_notifications.py"; "/tmp/a"]
           ["setup_payment_notifications.py"; "/tmp/b"] boot); simpl; lia.
Defined.


(** C6: arguments after the first are ignored: the run ends with the same
    status and writes the same bytes as the run with the first argument
    alone. *)
Theorem extra_arguments_ignored
    (prog a b : string) (rest : list string) (w : World) :
  run (prog :: a :: b :: rest) w = run [prog; a] w /\
  status (prog :: a :: b :: rest) w = status [prog; a] w /\
  output (prog :: a :: b :: rest) w = output [prog; a] w.
Proof.
  assert (H : (2 <= length (prog :: a :: b :: rest))%nat) by (simpl; lia).
  assert (G : (2 <= length [prog; a])%nat) by (simpl; lia).
  unfold status. now rewrite !run_long, !output_long by assumption.
Qed.

(** C7: each of the four generators takes no argument (none of them is a
    function of the argument list or of the path), changes nothing in the
    world, and returns one fixed text in every world it is called in. *)
Theorem generators_are_constant :
  Forall (fun g : Py string => exists s, returns_constant g s) generators /\
  length generators = 4%nat.
Proof.
  split; [|reflexivity].
  unfold generators. repeat constructor; eexists; intros w; reflexivity.
Qed.

(** C8: each generator returns a text that is not empty; the schema text
    contains both "notifications" and "adminNotificationPreferences", and
    the webhook text contains "checkout.session.completed". *)
Theorem generators_have_markers (w : World) :
  (exists s, generate_notification_types w = (Returned s, w) /\
     s <> EmptyString) /\
  (exists s, generate_database_schema w = (Returned s, w) /\
     s <> EmptyString /\
     substring_of "notifications" s /\
     substring_of "adminNotificationPreferences" s) /\
  (exists s, generate_webhook_handler w = (Returned s, w) /\
     s <> EmptyString /\
     substring_of "checkout.session.completed" s) /\
  (exists s, generate_notification_helpers w = (Returned s, w) /\
     s <> EmptyString).
Proof.
  repeat split; eexists; (split; [reflexivity|]);
    repeat split; try discriminate; by_search.
Qed.

(** C9: when no argument follows the program name, the usage line is all
    the run writes: one line, with none of the banner, header or next-step
    lines of the report and none of the four templates in it. *)
Theorem missing_argument_prints_only_usage (argv : list string) (w : World) :
  (length argv < 2)%nat ->
  stdout (snd (run argv w)) = stdout w ++ usage_line ++ nl /\
  output argv w = usage_line ++ nl /\
  occurrences nl (output argv w) = 1%nat /\
  Forall (fun l => ~ substring_of l (output argv w)) report_lines /\
  Forall (fun g : Py string =>
            forall s w0, g w0 = (Returned s, w0) ->
                         ~ substring_of s (output argv w)) generators.
Proof.
  intros H. rewrite run_short, output_short by assumption.
  split; [reflexivity|]. split; [reflexivity|]. split; [reflexivity|].
  split.
  - unfold report_lines, section_headers. simpl app.
    repeat constructor; by_search.
  - unfold generators. repeat constructor; intros s w0 [= <-]; by_search.
Qed.

Lemma missing_argument_prints_only_usage_witness :
  stdout (snd (run ["setup_payment_notifications.py"] boot))
  = stdout boot ++ usage_line ++ nl.
Proof.
  apply (missing_argument_prints_only_usage
           ["setup_payment_notifications.py"] boot).
  simpl. lia.
Defined.

(** C10: the webhook text has exactly seven [case] clauses, one for each
    of the seven event types, in that order, and one [default] branch. *)
Theorem webhook_case_labels (w : World) :
  exists body,
    generate_webhook_handler w = (Returned body, w) /\
    case_labels body = event_types /\
    length event_types = 7%nat /\
    NoDup event_types /\
    occurrences "case " body = 7%nat /\
    Forall (fun l => occurrences (case_clause l) body = 1%nat) event_types /\
    occurrences "default:" body = 1%nat.
Proof.
  eexists. split; [reflexivity|].
  split; [vm_compute; reflexivity|]. split; [reflexivity|].
  split.
  - unfold event_types.
    repeat (constructor; [simpl; intuition discriminate|]). constructor.
  - split; [vm_compute; reflexivity|].
    split; [|vm_compute; reflexivity].
    unfold event_types. repeat constructor; vm_compute; reflexivity.
Qed.

(** ** Further properties of the entry point *)

(** X1: [main] ends in one of three ways only. It raises [SystemExit(1)]
    exactly when no argument follows the program name (the empty argument
    list included); with an argument it returns exactly when standard
    output can encode the four characters of the report outside ASCII, and
    stops on [UnicodeEncodeError] exactly when it cannot. The index
    [sys.argv[1]] never raises [IndexError]. *)
Theorem main_returns_or_exits (argv : list string) (w : World) :
  fst (main argv w) <> Raised IndexError /\
  (fst (main argv w) = Raised (SystemExit 1) <-> (length argv < 2)%nat) /\
  (fst (main argv w) = Returned tt <->
     (2 <= length argv)%nat /\ can_encode_report w) /\
  (fst (main argv w) = Raised UnicodeEncodeError <->
     (2 <= length argv)%nat /\ ~ can_encode_report w).
Proof.
  rewrite can_encode_iff. destruct (short_or_long argv) as [H|H].
  - rewrite main_short by assumption. fields.
    repeat split; try discriminate; try (intros; assumption);
      intros [? _]; lia.
  - rewrite main_long by assumption. fields. rewrite report_outcome.
    destruct (encodes_all (stdout_codec w));
      repeat split; try discriminate; try (intros; assumption);
      try (intros; lia); try (intros [_ ?]; congruence).
Qed.

(** X2: two argument lists lead to the same run (status and final world)
    exactly when both have an argument after the program name or both have
    none: neither the program name nor the text of any argument matters. *)
Theorem run_depends_on_presence_only (argv1 argv2 : list string) (w : World) :
  run argv1 w = run argv2 w <->
  (length argv1 <? 2)%nat = (length argv2 <? 2)%nat.
Proof.
  destruct (short_or_long argv1) as [H1|H1];
    destruct (short_or_long argv2) as [H2|H2];
    rewrite ?(short_ltb argv1 H1), ?(long_ltb argv1 H1),
            ?(short_ltb argv2 H2), ?(long_ltb argv2 H2),
            ?(run_short argv1 w H1), ?(run_long argv1 w H1),
            ?(run_short argv2 w H2), ?(run_long argv2 w H2);
    split; intros E; try reflexivity; try discriminate; exfalso.
  - apply (f_equal (fun p => stdout (snd p))) in E. fields_in E.
    apply app_inv_head in E. symmetry in E. revert E. apply report_not_usage.
  - apply (f_equal (fun p => stdout (snd p))) in E. fields_in E.
    apply app_inv_head in E. revert E. apply report_not_usage.
Qed.

(** X3: in a full report on a UTF-8 standard output each template can be
    cut back out: the text between a section's header with its rule of 50
    dashes and the blank line before the next header (the closing rule
    after the last section) is exactly what that section's generator
    returns. *)
Theorem snippets_cut_back_out (argv : list string) (w : World) :
  (2 <= length argv)%nat ->
  utf8_stdout w ->
  forall (i : nat) (g : Py string) (h next : string),
    nth_error generators i = Some g ->
    nth_error section_headers i = Some h ->
    nth_error section_ends i = Some next ->
    exists s, returns_constant g s /\ snippet h next (output argv w) = Some s.
Proof.
  intros H U i g h next.
  rewrite output_long, (proj2 (report_utf8 _ U)) by assumption.
  destruct i as [|[|[|[|[|i]]]]]; simpl; try discriminate;
    intros [= <-] [= <-] [= <-]; eexists; (split; [constant | computed]).
Qed.

Lemma snippets_cut_back_out_witness :
  exists s,
    returns_constant generate_database_schema s /\
    snippet "2. Database Schema (drizzle/schema.ts)"
            "3. Webhook Handler (server/_core/stripeWebhook.ts)"
            (output ["setup_payment_notifications.py"; "."] boot) = Some s.
Proof.
  apply (snippets_cut_back_out ["setup_payment_notifications.py"; "."] boot)
    with (i := 1%nat);
    [simpl; lia | intros ch; reflexivity
     | reflexivity | reflexivity | reflexivity].
Defined.

(** X4: on a UTF-8 standard output what the run writes is pure ASCII
    exactly when it is the usage line: the report holds characters outside
    ASCII, the usage line none. *)
Theorem ascii_iff_usage (argv : list string) (w : World) :
  utf8_stdout w ->
  is_ascii (output argv w) = (length argv <? 2)%nat.
Proof.
  intros U. destruct (short_or_long argv) as [H|H].
  - rewrite (short_ltb argv H), output_short by assumption. computed.
  - rewrite (long_ltb argv H), output_long, (proj2 (report_utf8 _ U))
      by assumption.
    computed.
Qed.

Lemma ascii_iff_usage_witness :
  is_ascii (output ["setup_payment_notifications.py"; "."] boot)
  = (length ["setup_payment_notifications.py"; "."] <? 2)%nat.
Proof.
  apply (ascii_iff_usage ["setup_payment_notifications.py"; "."] boot).
  intros ch. reflexivity.
Defined.

(** ** Properties of the generated text *)

(** X5: the three tables of the notification-types template agree: the six
    type values are distinct, they are exactly the keys of the icon table
    and of the colour table, in the same order, and each type constant is
    named by its value in upper case. *)
Theorem type_tables_agree :
  exists s, returns_constant generate_notification_types s /\
    let types := table "PAYMENT_NOTIFICATION_TYPES" s in
    let icons := table "PAYMENT_NOTIFICATION_ICONS" s in
    let colors := table "PAYMENT_NOTIFICATION_COLORS" s in
    length types = 6%nat /\
    NoDup (map snd types) /\
    map fst icons = map snd types /\
    map fst colors = map snd types /\
    map fst types = map upper (map snd types).
Proof.
  eexists. split; [constant|]. cbv zeta.
  split; [computed|]. split; [apply distinct_NoDup; computed|].
  split; [computed|]. split; computed.
Qed.

(** X6: every notification type the helper template creates a notification
    with is one of the values the notification-types template declares. *)
Theorem helper_types_are_declared :
  exists s1 s4,
    returns_constant generate_notification_types s1 /\
    returns_constant generate_notification_helpers s4 /\
    quoted_after "type: " s4 = ["payment_success"; "payment_failed"] /\
    incl (quoted_after "type: " s4)
         (map snd (table "PAYMENT_NOTIFICATION_TYPES" s1)).
Proof.
  do 2 eexists. split; [constant|]. split; [constant|].
  split; [computed|]. apply all_in_incl. computed.
Qed.

(** X7: every function the webhook template awaits is defined in that
    template or exported by the helper template, and the helper template
    exports nothing else. *)
Theorem webhook_calls_resolve :
  exists s3 s4,
    returns_constant generate_webhook_handler s3 /\
    returns_constant generate_notification_helpers s4 /\
    words_after "await " s3 <> [] /\
    incl (words_after "await " s3)
         (words_after "function " s3 ++
          words_after "export async function " s4) /\
    incl (words_after "export async function " s4)
         (words_after "await " s3) /\
    words_after "function " s4 = words_after "export async function " s4.
Proof.
  do 2 eexists. split; [constant|]. split; [constant|].
  split; [vm_compute; discriminate|].
  split; [apply all_in_incl; computed|].
  split; [apply all_in_incl; computed | computed].
Qed.

(** X8: the helper template awaits [createAdminNotification], and none of
    the four templates defines it, as a function or as a constant: the
    report does not contain all the code its helpers call. *)
Theorem helper_dependency_is_not_generated :
  (exists s4, returns_constant generate_notification_helpers s4 /\
     In "createAdminNotification" (words_after "await " s4)) /\
  Forall (fun g : Py string =>
            exists s, returns_constant g s /\
              ~ In "createAdminNotification" (words_after "function " s) /\
              ~ substring_of "createAdminNotification =" s) generators.
Proof.
  split.
  - eexists. split; [constant|]. apply mem_In. computed.
  - unfold generators.
    repeat (apply Forall_cons;
            [eexists; split; [constant|];
             split; [apply mem_not_In; computed | by_search]|]).
    apply Forall_nil.
Qed.

(** X9: in each of the four templates the round, square and curly
    brackets are properly nested over the whole text. *)
Theorem templates_are_balanced :
  Forall (fun g : Py string =>
            exists s, returns_constant g s /\ balanced s = true) generators.
Proof.
  unfold generators.
  repeat (apply Forall_cons; [eexists; split; [constant | computed]|]).
  apply Forall_nil.
Qed.

(** X10: in the webhook template no [case] clause falls through: each of
    the seven clauses reaches a [break;] before any other clause starts,
    there are as many [break;] as clauses, and [default] comes last. *)
Theorem webhook_cases_end_in_break :
  exists body,
    returns_constant generate_webhook_handler body /\
    Forall (fun l => clause_breaks body l = true) event_types /\
    occurrences "break;" body = length event_types /\
    contains "default:" body = true /\
    between "default:" "case " body = None.
Proof.
  eexists. split; [constant|].
  split.
  - unfold event_types.
    repeat (apply Forall_cons; [computed|]). apply Forall_nil.
  - split; [computed|]. split; computed.
Qed.

(** X11: the file a section header names in brackets is the file the
    section's template says it is to be added to, for the schema, the
    webhook and the helper sections; the notification-types template
    opens with a plain comment instead. *)
Theorem templates_name_their_files :
  Forall2 (fun (h : string) (g : Py string) =>
             exists s f, returns_constant g s /\
               between "(" ")" h = Some f /\
               first_line s = "// Add to " ++ f)
          (tl section_headers) (tl generators) /\
  (exists s, returns_constant generate_notification_types s /\
     strip_prefix "// Add to " s = None).
Proof.
  split.
  - unfold section_headers, generators. simpl tl.
    repeat (apply Forall2_cons;
            [do 2 eexists; split; [constant|];
             split; [reflexivity | computed]|]).
    apply Forall2_nil.
  - eexists. split; [constant | computed].
Qed.
